(** * Adreno idler: the idle-frequency decision of drivers/devfreq/adreno_idler.c

    A shallow embedding of [get_time_inms] and [adreno_idler] and the
    properties of the decision they take on every load sample. *)

From Stdlib Require Import ZArith List Bool Lia Sorted.
Import ListNotations.
Local Open Scope Z_scope.

(** ** Machine integers

    The kernel is built for a 64-bit target: [unsigned long] and [int64_t]
    are 64 bits wide, [unsigned int] is 32 bits wide.  Arithmetic in an
    unsigned type wraps; the kernel is compiled with wrapping signed
    arithmetic as well. *)
Module CInt.

Definition uint (x : Z) : Z := x mod 2 ^ 32.
Definition ulong (x : Z) : Z := x mod 2 ^ 64.
Definition s64 (x : Z) : Z := (x + 2 ^ 63) mod 2 ^ 64 - 2 ^ 63.

End CInt.
Import CInt.

(** ** Data the routine works on *)

(** Modelled from the spec: [struct timespec] is declared in the kernel's
    headers, outside the sources; it holds the seconds and nanoseconds that
    [current_kernel_time()] returns, both [long]. *)
Record timespec := { tv_sec : Z; tv_nsec : Z }.

(** Modelled from the spec: [struct devfreq_dev_status] is declared in
    linux/devfreq.h, outside the sources; the load sample carries the two
    [unsigned long] fields the routine reads. *)
Record devfreq_dev_status := { total_time : Z; busy_time : Z }.

(** Modelled from the spec: [struct devfreq_dev_profile] is declared in
    linux/devfreq.h, outside the sources; the frequency table is an array
    with [max_state] ([unsigned int]) entries. *)
Record devfreq_dev_profile := { freq_table : list Z; max_state : Z }.

(** [struct devfreq], reduced to the [profile] pointer the routine follows. *)
Record devfreq := { profile : devfreq_dev_profile }.

(** The module parameters.  The file declares [idleworkload] twice ([int]
    and [unsigned long]) and the master switch twice ([int] and [bool]);
    every use converts them the same way, so each is kept as the integer
    the parameter holds. *)
Record params := {
  idleworkload : Z;
  idlewaitms : Z;
  idlewait : Z;
  downdifferenctial : Z;
  adreno_idler_active : Z
}.

(** What the routine reads from the rest of the kernel during one call: the
    [state_suspended] flag (declared in linux/state_notifier.h, a boolean
    by its use) and the clock.  The routine writes neither.  It reads the
    clock up to twice in a call; a call is taken to be short against the
    clock's tick, so both reads see the same value. *)
Record kernel := { state_suspended : bool; current_kernel_time : timespec }.

(** The memory the routine reads and writes: the file-level static
    [idle_lasttime] ([int64_t], zero when no idle period is running), the
    variable [idlecount] (used by the routine and compared with the
    [unsigned int] parameter [idlewait]; its declaration is not in the
    file), and the caller's variable behind the [freq] pointer.
    [freq_stores] records every value assigned through [*freq], newest
    first.  There is one such memory, whatever device a call is for. *)
Record mem := {
  idle_lasttime : Z;
  idlecount : Z;
  freq : Z;
  freq_stores : list Z
}.

(** ** A state and failure monad for the routine's effects

    [None] stands for a read outside the frequency table, which is
    undefined behaviour in C. *)
Module M.

Definition t (A : Type) : Type := mem -> option (A * mem).

Definition ret {A} (a : A) : t A := fun m => Some (a, m).

Definition bind {A B} (c : t A) (f : A -> t B) : t B :=
  fun m => match c m with
           | Some (a, m') => f a m'
           | None => None
           end.

Definition fail {A} : t A := fun _ => None.

Definition gets {A} (f : mem -> A) : t A := fun m => Some (f m, m).

Definition modify (f : mem -> mem) : t unit := fun m => Some (tt, f m).

End M.

Declare Scope idler_scope.
Delimit Scope idler_scope with idler.
Notation "x <- c ;; k" := (M.bind c (fun x => k))
  (at level 100, c at next level, right associativity) : idler_scope.
Notation "c ;;; k" := (M.bind c (fun _ => k))
  (at level 100, right associativity) : idler_scope.
Local Open Scope idler_scope.

Definition set_idle_lasttime (v : Z) : M.t unit :=
  M.modify (fun m => {| idle_lasttime := v; idlecount := idlecount m;
                        freq := freq m; freq_stores := freq_stores m |}).

Definition set_idlecount (v : Z) : M.t unit :=
  M.modify (fun m => {| idle_lasttime := idle_lasttime m; idlecount := v;
                        freq := freq m; freq_stores := freq_stores m |}).

(** [*freq = v] *)
Definition store_freq (v : Z) : M.t unit :=
  M.modify (fun m => {| idle_lasttime := idle_lasttime m;
                        idlecount := idlecount m;
                        freq := v; freq_stores := v :: freq_stores m |}).

(** [devfreq->profile->freq_table[i]] for an index already reduced to
    [unsigned int]. *)
Definition table_entry (d : devfreq) (i : Z) : option Z :=
  nth_error (freq_table (profile d)) (Z.to_nat i).

Definition read_table (d : devfreq) (i : Z) : M.t Z :=
  match table_entry d i with
  | Some v => M.ret v
  | None => M.fail
  end.

(** ** The routine *)

(** Modelled from the spec: [MSEC_PER_SEC] and [NSEC_PER_MSEC] come from
    linux/time.h, which is not part of the sources; the clock is read
    in milliseconds. *)
Definition MSEC_PER_SEC : Z := 1000.
Definition NSEC_PER_MSEC : Z := 1000000.

(** [get_time_inms], on the [timespec] that [current_kernel_time()] gave. *)
Definition get_time_inms (cur_time : timespec) : Z :=
  let tinms := s64 (tv_sec cur_time * MSEC_PER_SEC) in
  let tinms := s64 (tinms + Z.quot (tv_nsec cur_time) NSEC_PER_MSEC) in
  tinms.

(** [stats.busy_time < idleworkload], compared as [unsigned long]. *)
Definition below_idleworkload (p : params) (stats : devfreq_dev_status) : bool :=
  busy_time stats <? ulong (idleworkload p).

(** [stats.busy_time * 100 < stats.total_time * downdifferenctial], both
    products taken in [unsigned long]. *)
Definition below_downdifferenctial (p : params) (stats : devfreq_dev_status) : bool :=
  ulong (busy_time stats * 100)
  <? ulong (total_time stats * ulong (downdifferenctial p)).

(** [freq_table[max_state - 1]], the last entry, which the routine's
    comments call the lowest frequency, and [freq_table[max_state - 2]],
    the one before it.  The index is computed in [unsigned int]. *)
Definition lowest (d : devfreq) : option Z :=
  table_entry d (uint (max_state (profile d) - 1)).

Definition second_lowest (d : devfreq) : option Z :=
  table_entry d (uint (max_state (profile d) - 2)).

Definition adreno_idler (p : params) (k : kernel)
    (stats : devfreq_dev_status) (d : devfreq) : M.t Z :=
  if adreno_idler_active p =? 0 then M.ret 0 else
  if below_idleworkload p stats then
    last <- M.gets idle_lasttime ;;
    (if last =? 0
     then set_idle_lasttime (get_time_inms (current_kernel_time k))
     else M.ret tt) ;;;
    cur <- M.gets freq ;;
    floor <- read_table d (uint (max_state (profile d) - 1)) ;;
    if cur =? floor then M.ret 1 else
    count <- M.gets idlecount ;;
    if (idlewait p <=? count) && below_downdifferenctial p stats
    then M.ret 1 else
    last <- M.gets idle_lasttime ;;
    if (s64 (last + idlewaitms p) <=? get_time_inms (current_kernel_time k))
       && below_downdifferenctial p stats
    then
      floor <- read_table d (uint (max_state (profile d) - 1)) ;;
      store_freq floor ;;;
      M.ret 1
    else M.ret 0
  else if state_suspended k then
    floor <- read_table d (uint (max_state (profile d) - 1)) ;;
    store_freq floor ;;;
    M.ret 1
  else
    set_idlecount 0 ;;;
    set_idle_lasttime 0 ;;;
    bump <- read_table d (uint (max_state (profile d) - 2)) ;;
    store_freq bump ;;;
    M.ret 0.

(** ** Concrete data used in the examples *)

Definition default_params : params :=
  {| idleworkload := 5000; idlewaitms := 500; idlewait := 25;
     downdifferenctial := 20; adreno_idler_active := 1 |}.

Definition table3 : devfreq :=
  {| profile := {| freq_table := [600; 400; 200]; max_state := 3 |} |}.

Definition at_ms (suspended : bool) (ms : Z) : kernel :=
  {| state_suspended := suspended;
     current_kernel_time := {| tv_sec := ms / 1000;
                               tv_nsec := (ms mod 1000) * 1000000 |} |}.

Definition fresh (f : Z) : mem :=
  {| idle_lasttime := 0; idlecount := 0; freq := f; freq_stores := [] |}.

(** What the idle branch does first: [idle_lasttime] is set to the clock
    reading when it is zero. *)
Definition idle_noted (now : Z) (m : mem) : mem :=
  if idle_lasttime m =? 0
  then {| idle_lasttime := now; idlecount := idlecount m;
          freq := freq m; freq_stores := freq_stores m |}
  else m.

(** The memory after [*freq = v]. *)
Definition stored (v : Z) (m : mem) : mem :=
  {| idle_lasttime := idle_lasttime m; idlecount := idlecount m;
     freq := v; freq_stores := v :: freq_stores m |}.

(** The memory after the two resets of the last branch. *)
Definition reset (m : mem) : mem :=
  {| idle_lasttime := 0; idlecount := 0;
     freq := freq m; freq_stores := freq_stores m |}.

(** The table is an array of [max_state] entries, at least [n] of them. *)
Definition has_entries (d : devfreq) (n : Z) : Prop :=
  max_state (profile d) = Z.of_nat (length (freq_table (profile d)))
  /\ n <= max_state (profile d) < 2 ^ 32.

(** The routine called once per load sample, in order, on one memory; the
    return values are collected. *)
Fixpoint run_samples (p : params) (d : devfreq)
    (samples : list (kernel * devfreq_dev_status)) : M.t (list Z) :=
  match samples with
  | [] => M.ret []
  | (k, stats) :: rest =>
      r <- adreno_idler p k stats d ;;
      rs <- run_samples p d rest ;;
      M.ret (r :: rs)
  end.

(** What the specification asks of the state after a call, by the class of
    the sample: [idle_lasttime] set after an idle sample, both variables
    cleared after any other. *)
Definition state_follows_sample (p : params) (stats : devfreq_dev_status)
    (m' : mem) : Prop :=
  if below_idleworkload p stats
  then idle_lasttime m' <> 0
  else idlecount m' = 0 /\ idle_lasttime m' = 0.

(** More concrete data: a device with a single frequency, a second device,
    three samples, and 25 idle samples taken 10 ms apart. *)
Definition table1 : devfreq :=
  {| profile := {| freq_table := [200]; max_state := 1 |} |}.

Definition table_other : devfreq :=
  {| profile := {| freq_table := [800; 500; 300]; max_state := 3 |} |}.

Definition idle_sample : devfreq_dev_status :=
  {| total_time := 10000; busy_time := 1000 |}.

Definition busy_sample : devfreq_dev_status :=
  {| total_time := 10000; busy_time := 6000 |}.

Definition empty_sample : devfreq_dev_status :=
  {| total_time := 0; busy_time := 0 |}.

Definition idle_burst : list (kernel * devfreq_dev_status) :=
  map (fun i => (at_ms false (7000 + 10 * Z.of_nat i), idle_sample))
      (seq 0 25).

(** ** Facts about the machine integers *)

Lemma uint_range x : 0 <= uint x < 2 ^ 32.
Proof. unfold uint. apply Z.mod_pos_bound. reflexivity. Qed.

Lemma ulong_range x : 0 <= ulong x < 2 ^ 64.
Proof. unfold ulong. apply Z.mod_pos_bound. reflexivity. Qed.

Lemma ulong_id x : 0 <= x < 2 ^ 64 -> ulong x = x.
Proof. intros H. unfold ulong. apply Z.mod_small. exact H. Qed.

Lemma ulong_le x : 0 <= x -> ulong x <= x.
Proof. intros H. unfold ulong. apply Z.mod_le; [exact H | reflexivity]. Qed.

Lemma uint_id x : 0 <= x < 2 ^ 32 -> uint x = x.
Proof. intros H. unfold uint. apply Z.mod_small. exact H. Qed.

Lemma s64_range x : - 2 ^ 63 <= s64 x < 2 ^ 63.
Proof.
  unfold s64.
  pose proof (Z.mod_pos_bound (x + 2 ^ 63) (2 ^ 64) eq_refl) as H.
  lia.
Qed.

Lemma s64_id x : - 2 ^ 63 <= x < 2 ^ 63 -> s64 x = x.
Proof.
  intros H. unfold s64. rewrite Z.mod_small; lia.
Qed.

(** ** Basic facts *)

Ltac unfold_idler :=
  unfold adreno_idler, read_table, set_idle_lasttime, set_idlecount,
    store_freq, M.bind, M.gets, M.modify, M.ret, M.fail.

Lemma table_entry_defined d i :
  0 <= i < Z.of_nat (length (freq_table (profile d))) ->
  exists f, table_entry d i = Some f.
Proof.
  intros H. unfold table_entry.
  destruct (nth_error (freq_table (profile d)) (Z.to_nat i)) as [f|] eqn:E.
  - exists f. reflexivity.
  - apply nth_error_None in E. lia.
Qed.

Lemma table_entry_outside d i :
  Z.of_nat (length (freq_table (profile d))) <= i -> table_entry d i = None.
Proof.
  intros H. unfold table_entry. apply nth_error_None. lia.
Qed.

Lemma lowest_defined d : has_entries d 1 -> exists f, lowest d = Some f.
Proof.
  intros [Hlen Hn]. unfold lowest. apply table_entry_defined.
  rewrite uint_id; lia.
Qed.

Lemma second_lowest_defined d :
  has_entries d 2 -> exists f, second_lowest d = Some f.
Proof.
  intros [Hlen Hn]. unfold second_lowest. apply table_entry_defined.
  rewrite uint_id; lia.
Qed.

(** When the table lists the frequencies from the highest down, the entry
    the routine takes for the lowest is the least one. *)
Lemma last_entry_is_least (l : list Z) (floor : Z) :
  StronglySorted Z.ge l ->
  nth_error l (length l - 1) = Some floor ->
  Forall (fun f => floor <= f) l.
Proof.
  intros Hsorted. induction Hsorted as [| a l Hs IH Ha]; intros Hlast.
  - constructor.
  - destruct l as [| b l'].
    + cbn in Hlast. injection Hlast as <-. constructor; [lia | constructor].
    + cbn [length] in Hlast, IH.
      replace (S (S (length l')) - 1)%nat with (S (length l')) in Hlast by lia.
      replace (S (length l') - 1)%nat with (length l') in IH by lia.
      cbn [nth_error] in Hlast.
      specialize (IH Hlast). constructor; [| exact IH].
      assert (Hin : In floor (b :: l')) by (eapply nth_error_In; exact Hlast).
      rewrite Forall_forall in Ha. specialize (Ha floor Hin). lia.
Qed.

Lemma lowest_is_least d floor :
  has_entries d 1 ->
  StronglySorted Z.ge (freq_table (profile d)) ->
  lowest d = Some floor ->
  Forall (fun f => floor <= f) (freq_table (profile d)).
Proof.
  intros [Hl Hn] Hsorted Hf. apply last_entry_is_least; [exact Hsorted |].
  unfold lowest, table_entry in Hf. rewrite uint_id in Hf by lia.
  rewrite <- Hf. f_equal. lia.
Qed.

Lemma get_time_inms_range ts : - 2 ^ 63 <= get_time_inms ts < 2 ^ 63.
Proof. unfold get_time_inms. apply s64_range. Qed.

(** For a normalised [timespec] of this era the reading is exact. *)
Lemma get_time_inms_exact ts :
  0 <= tv_sec ts < 2 ^ 52 -> 0 <= tv_nsec ts < 1000000000 ->
  get_time_inms ts = tv_sec ts * 1000 + tv_nsec ts / 1000000.
Proof.
  intros Hs Hn. unfold get_time_inms, MSEC_PER_SEC, NSEC_PER_MSEC.
  rewrite Z.quot_div_nonneg by lia.
  assert (0 <= tv_nsec ts / 1000000 < 1000).
  { split; [apply Z.div_pos; lia | apply Z.div_lt_upper_bound; lia]. }
  rewrite (s64_id (tv_sec ts * 1000)) by lia.
  apply s64_id. lia.
Qed.

Lemma idle_test_true p stats :
  0 <= idleworkload p < 2 ^ 64 -> busy_time stats < idleworkload p ->
  below_idleworkload p stats = true.
Proof.
  intros Hr Hlt. unfold below_idleworkload.
  rewrite ulong_id by exact Hr. apply Z.ltb_lt. exact Hlt.
Qed.

Lemma idle_test_false p stats :
  0 <= idleworkload p -> idleworkload p <= busy_time stats ->
  below_idleworkload p stats = false.
Proof.
  intros Hr Hle. unfold below_idleworkload. apply Z.ltb_ge.
  pose proof (ulong_le (idleworkload p) Hr). lia.
Qed.

Lemma active_test p : adreno_idler_active p <> 0 ->
  (adreno_idler_active p =? 0) = false.
Proof. intros H. apply Z.eqb_neq. exact H. Qed.

(** The switched-off case, then the three branches of the routine taken
    with the switch on, one equation each. *)
Lemma adreno_idler_off p k stats d m :
  adreno_idler_active p = 0 -> adreno_idler p k stats d m = Some (0, m).
Proof. intros Hoff. unfold_idler. rewrite Hoff. reflexivity. Qed.

Section SwitchedOn.

Variables (p : params) (k : kernel) (stats : devfreq_dev_status)
          (d : devfreq) (m : mem).
Hypothesis Hon : adreno_idler_active p <> 0.

Lemma adreno_idler_idle :
  below_idleworkload p stats = true ->
  adreno_idler p k stats d m =
  let now := get_time_inms (current_kernel_time k) in
  let m1 := idle_noted now m in
  match lowest d with
  | None => None
  | Some floor =>
      if freq m =? floor then Some (1, m1)
      else if (idlewait p <=? idlecount m) && below_downdifferenctial p stats
      then Some (1, m1)
      else if (s64 (idle_lasttime m1 + idlewaitms p) <=? now)
              && below_downdifferenctial p stats
      then Some (1, stored floor m1)
      else Some (0, m1)
  end.
Proof.
  intros Hi. unfold_idler. rewrite (active_test p Hon), Hi.
  unfold idle_noted, lowest, stored.
  destruct (idle_lasttime m =? 0); cbn;
    destruct (table_entry d (uint (max_state (profile d) - 1))); cbn;
    try reflexivity;
    repeat match goal with
           | |- context [if ?b then _ else _] => destruct b; cbn
           end; reflexivity.
Qed.

Lemma adreno_idler_suspended :
  below_idleworkload p stats = false ->
  state_suspended k = true ->
  adreno_idler p k stats d m =
  match lowest d with
  | None => None
  | Some floor => Some (1, stored floor m)
  end.
Proof.
  intros Hi Hs. unfold_idler. rewrite (active_test p Hon), Hi, Hs.
  unfold lowest, stored.
  destruct (table_entry d (uint (max_state (profile d) - 1))); reflexivity.
Qed.

Lemma adreno_idler_busy :
  below_idleworkload p stats = false ->
  state_suspended k = false ->
  adreno_idler p k stats d m =
  match second_lowest d with
  | None => None
  | Some bump => Some (0, stored bump (reset m))
  end.
Proof.
  intros Hi Hs. unfold_idler. rewrite (active_test p Hon), Hi, Hs.
  unfold second_lowest, stored, reset. cbn.
  destruct (table_entry d (uint (max_state (profile d) - 2))); reflexivity.
Qed.

End SwitchedOn.

(** With a table of at least two entries the routine always returns. *)
Lemma adreno_idler_returns p k stats d m :
  has_entries d 2 -> exists r m', adreno_idler p k stats d m = Some (r, m').
Proof.
  intros Hd.
  destruct (lowest_defined d) as [floor Hf].
  { destruct Hd as [Hl Hn]. split; [exact Hl | lia]. }
  destruct (second_lowest_defined d Hd) as [bump Hb].
  destruct (Z.eq_dec (adreno_idler_active p) 0) as [Hoff | Hon].
  - exists 0, m. unfold_idler. rewrite Hoff. reflexivity.
  - destruct (below_idleworkload p stats) eqn:Hi.
    + rewrite (adreno_idler_idle p k stats d m Hon Hi). cbn zeta. rewrite Hf.
      repeat match goal with
             | |- context [if ?b then _ else _] => destruct b
             end; eauto.
    + destruct (state_suspended k) eqn:Hs.
      * rewrite (adreno_idler_suspended p k stats d m Hon Hi Hs), Hf. eauto.
      * rewrite (adreno_idler_busy p k stats d m Hon Hi Hs), Hb. eauto.
Qed.

(** An idle sample never changes [idlecount], whatever the call returns. *)
Lemma idle_sample_keeps_idlecount p k stats d m r m' :
  adreno_idler_active p <> 0 -> below_idleworkload p stats = true ->
  adreno_idler p k stats d m = Some (r, m') ->
  idlecount m' = idlecount m.
Proof.
  intros Hon Hi. rewrite (adreno_idler_idle p k stats d m Hon Hi). cbn zeta.
  destruct (lowest d) as [floor|]; [| discriminate].
  assert (Hn : forall now, idlecount (idle_noted now m) = idlecount m).
  { intros now. unfold idle_noted. destruct (idle_lasttime m =? 0); reflexivity. }
  repeat match goal with
         | |- context [if ?b then _ else _] => destruct b
         end;
    intros H; injection H as _ <-; cbn; apply Hn.
Qed.

(** [idle_lasttime] and [idlecount] after a call that returns, as a
    function of what the call was given; the device does not enter. *)
Lemma statics_after_call p k stats d m r m' :
  adreno_idler_active p <> 0 ->
  adreno_idler p k stats d m = Some (r, m') ->
  (idle_lasttime m', idlecount m')
  = if below_idleworkload p stats
    then (if idle_lasttime m =? 0
          then get_time_inms (current_kernel_time k)
          else idle_lasttime m, idlecount m)
    else if state_suspended k then (idle_lasttime m, idlecount m)
    else (0, 0).
Proof.
  intros Hon.
  destruct (below_idleworkload p stats) eqn:Hi.
  - rewrite (adreno_idler_idle p k stats d m Hon Hi). cbn zeta.
    destruct (lowest d) as [floor|]; [| discriminate].
    assert (Hn : forall now,
               (idle_lasttime (idle_noted now m), idlecount (idle_noted now m))
               = (if idle_lasttime m =? 0 then now else idle_lasttime m,
                  idlecount m)).
    { intros now. unfold idle_noted.
      destruct (idle_lasttime m =? 0); reflexivity. }
    repeat match goal with
           | |- context [if ?b then _ else _] =>
               lazymatch b with
               | idle_lasttime m =? 0 => fail
               | _ => destruct b
               end
           end;
      intros H; injection H as _ <-; cbn [stored idle_lasttime idlecount];
      apply Hn.
  - destruct (state_suspended k) eqn:Hs.
    + rewrite (adreno_idler_suspended p k stats d m Hon Hi Hs).
      destruct (lowest d); [| discriminate].
      intros H. injection H as _ <-. reflexivity.
    + rewrite (adreno_idler_busy p k stats d m Hon Hi Hs).
      destruct (second_lowest d); [| discriminate].
      intros H. injection H as _ <-. reflexivity.
Qed.

(** ** The decision, property by property

    A decision is read off a call as follows: [final] is the return value
    (1 for true, 0 for false); a suggested frequency is the value the call
    leaves in [*freq]; no suggestion means no store through [freq]. *)

(** C6. With the master switch off the routine returns 0 and touches
    nothing: no store through [freq], [idle_lasttime] and [idlecount] as
    they were, for every sample, flag, frequency, table and state. *)
Theorem bypass_when_inactive p k stats d m :
  adreno_idler_active p = 0 ->
  adreno_idler p k stats d m = Some (0, m).
Proof.
  intros Hoff. unfold_idler. rewrite Hoff. reflexivity.
Qed.

Lemma bypass_when_inactive_witness :
  adreno_idler
    {| idleworkload := 5000; idlewaitms := 500; idlewait := 25;
       downdifferenctial := 20; adreno_idler_active := 0 |}
    (at_ms true 7000) idle_sample table3
    {| idle_lasttime := 6500; idlecount := 3; freq := 400; freq_stores := [] |}
  = Some (0, {| idle_lasttime := 6500; idlecount := 3; freq := 400;
                freq_stores := [] |}).
Proof.
  apply (bypass_when_inactive
           {| idleworkload := 5000; idlewaitms := 500; idlewait := 25;
              downdifferenctial := 20; adreno_idler_active := 0 |}).
  reflexivity.
Defined.

(** C3. Switch on, display suspended, [busy_time] at or above the
    threshold: the routine stores the lowest table entry in [*freq] and
    returns 1, whatever [idlecount] and [idle_lasttime] hold; both are left
    as they were. *)
Theorem suspended_forces_lowest p k stats d m floor :
  adreno_idler_active p <> 0 ->
  0 <= idleworkload p -> idleworkload p <= busy_time stats ->
  state_suspended k = true ->
  lowest d = Some floor ->
  adreno_idler p k stats d m = Some (1, stored floor m).
Proof.
  intros Hon Hr Hbusy Hs Hf.
  rewrite (adreno_idler_suspended p k stats d m Hon
             (idle_test_false p stats Hr Hbusy) Hs), Hf.
  reflexivity.
Qed.

Lemma suspended_forces_lowest_witness :
  adreno_idler default_params (at_ms true 7000) busy_sample table3
    {| idle_lasttime := 6900; idlecount := 30; freq := 600; freq_stores := [] |}
  = Some (1, {| idle_lasttime := 6900; idlecount := 30; freq := 200;
                freq_stores := [200] |}).
Proof.
  apply (suspended_forces_lowest default_params (at_ms true 7000) busy_sample
           table3 {| idle_lasttime := 6900; idlecount := 30; freq := 600;
                     freq_stores := [] |} 200);
    cbn; try reflexivity; try lia; discriminate.
Defined.

(** C4. Switch on, [busy_time] at or above the threshold, display not
    suspended, a table of at least three entries: the routine stores the
    second-lowest entry in [*freq], returns 0, and leaves [idlecount] and
    [idle_lasttime] at zero. *)
Theorem busy_sample_bumps_and_resets p k stats d m :
  adreno_idler_active p <> 0 ->
  0 <= idleworkload p -> idleworkload p <= busy_time stats ->
  state_suspended k = false ->
  has_entries d 3 ->
  exists bump m',
    second_lowest d = Some bump
    /\ adreno_idler p k stats d m = Some (0, m')
    /\ freq m' = bump /\ freq_stores m' = bump :: freq_stores m
    /\ idlecount m' = 0 /\ idle_lasttime m' = 0.
Proof.
  intros Hon Hr Hbusy Hs [Hl Hn].
  destruct (second_lowest_defined d) as [bump Hb].
  { split; [exact Hl | lia]. }
  exists bump, (stored bump (reset m)).
  rewrite (adreno_idler_busy p k stats d m Hon
             (idle_test_false p stats Hr Hbusy) Hs), Hb.
  repeat split; reflexivity.
Qed.

Lemma busy_sample_bumps_and_resets_witness :
  exists bump m',
    second_lowest table3 = Some bump
    /\ adreno_idler default_params (at_ms false 7000) busy_sample table3
         {| idle_lasttime := 6900; idlecount := 30; freq := 600;
            freq_stores := [] |} = Some (0, m')
    /\ freq m' = bump /\ freq_stores m' = [bump]
    /\ idlecount m' = 0 /\ idle_lasttime m' = 0.
Proof.
  apply (busy_sample_bumps_and_resets default_params (at_ms false 7000)
           busy_sample table3
           {| idle_lasttime := 6900; idlecount := 30; freq := 600;
              freq_stores := [] |}).
  - discriminate.
  - cbn. lia.
  - cbn. lia.
  - reflexivity.
  - unfold has_entries. cbn. lia.
Defined.

(** C5. Switch on, an idle sample ([busy_time] below the threshold) and
    [*freq] already equal to the lowest table entry: the routine returns 1
    and [*freq] holds the lowest entry on return.  (The routine leaves
    [*freq] alone here; the only write is the start of the idle period.) *)
Theorem floor_is_kept p k stats d m floor :
  adreno_idler_active p <> 0 ->
  0 <= idleworkload p < 2 ^ 64 -> busy_time stats < idleworkload p ->
  lowest d = Some floor ->
  freq m = floor ->
  exists m',
    adreno_idler p k stats d m = Some (1, m')
    /\ freq m' = floor
    /\ m' = idle_noted (get_time_inms (current_kernel_time k)) m.
Proof.
  intros Hon Hr Hidle Hf Hcur.
  exists (idle_noted (get_time_inms (current_kernel_time k)) m).
  rewrite (adreno_idler_idle p k stats d m Hon (idle_test_true p stats Hr Hidle)).
  cbn zeta. rewrite Hf, Hcur, Z.eqb_refl.
  repeat split. unfold idle_noted.
  destruct (idle_lasttime m =? 0); cbn; exact Hcur.
Qed.

Lemma floor_is_kept_witness :
  exists m',
    adreno_idler default_params (at_ms false 7000) idle_sample table3
      (fresh 200) = Some (1, m')
    /\ freq m' = 200
    /\ m' = idle_noted (get_time_inms (current_kernel_time (at_ms false 7000)))
              (fresh 200).
Proof.
  apply (floor_is_kept default_params (at_ms false 7000) idle_sample table3
           (fresh 200) 200).
  - discriminate.
  - cbn. lia.
  - cbn. lia.
  - reflexivity.
  - reflexivity.
Defined.

(** C10. Whatever the inputs and the state, a call that returns has either
    made no store through [freq], or exactly one, of the lowest or of the
    second-lowest table entry. *)
Theorem only_floor_or_bump_stored p k stats d m r m' :
  adreno_idler p k stats d m = Some (r, m') ->
  (freq_stores m' = freq_stores m /\ freq m' = freq m)
  \/ exists v, freq_stores m' = v :: freq_stores m /\ freq m' = v
               /\ (lowest d = Some v \/ second_lowest d = Some v).
Proof.
  assert (Hn : forall now, freq_stores (idle_noted now m) = freq_stores m
                           /\ freq (idle_noted now m) = freq m).
  { intros now. unfold idle_noted. destruct (idle_lasttime m =? 0); split; reflexivity. }
  destruct (Z.eq_dec (adreno_idler_active p) 0) as [Hoff | Hon].
  - rewrite (adreno_idler_off p k stats d m Hoff).
    intros H. injection H as _ <-. left. split; reflexivity.
  - destruct (below_idleworkload p stats) eqn:Hi.
    + rewrite (adreno_idler_idle p k stats d m Hon Hi). cbn zeta.
      destruct (lowest d) as [floor|] eqn:Hf; [| discriminate].
      repeat match goal with
             | |- context [if ?b then _ else _] => destruct b
             end;
        intros H; injection H as _ <-;
        try (left; apply Hn).
      right. exists floor. cbn. destruct (Hn (get_time_inms (current_kernel_time k))) as [-> _].
      repeat split. left. reflexivity.
    + destruct (state_suspended k) eqn:Hs.
      * rewrite (adreno_idler_suspended p k stats d m Hon Hi Hs).
        destruct (lowest d) as [floor|] eqn:Hf; [| discriminate].
        intros H. injection H as _ <-.
        right. exists floor. repeat split. left. reflexivity.
      * rewrite (adreno_idler_busy p k stats d m Hon Hi Hs).
        destruct (second_lowest d) as [bump|] eqn:Hb; [| discriminate].
        intros H. injection H as _ <-.
        right. exists bump. repeat split. right. reflexivity.
Qed.

Lemma only_floor_or_bump_stored_witness :
  (freq_stores (stored 200 (fresh 600)) = freq_stores (fresh 600)
   /\ freq (stored 200 (fresh 600)) = freq (fresh 600))
  \/ exists v, freq_stores (stored 200 (fresh 600)) = v :: freq_stores (fresh 600)
               /\ freq (stored 200 (fresh 600)) = v
               /\ (lowest table3 = Some v \/ second_lowest table3 = Some v).
Proof.
  apply (only_floor_or_bump_stored default_params (at_ms true 7000)
           busy_sample table3 (fresh 600) 1 (stored 200 (fresh 600))).
  reflexivity.
Defined.

(** C1. Threshold 5000, wait 500 ms, down differential 20, switch on; a
    sample with [busy_time] 1000 and [total_time] 10000; [*freq] above the
    lowest entry; [idle_lasttime] clear and fewer idle events counted than
    [idlewait].  A first call at clock reading [T0] (not the zero that
    stands for a clear [idle_lasttime]) returns 0 without a store through
    [freq] and leaves [idle_lasttime = T0]; a second call 600 ms later on
    the same sample and the state the first one left stores the lowest
    entry and returns 1. *)
Theorem time_based_confirmation p k0 k1 stats d m floor :
  idleworkload p = 5000 -> idlewaitms p = 500 ->
  downdifferenctial p = 20 -> adreno_idler_active p <> 0 ->
  busy_time stats = 1000 -> total_time stats = 10000 ->
  lowest d = Some floor -> floor < freq m ->
  idle_lasttime m = 0 -> idlecount m < idlewait p ->
  get_time_inms (current_kernel_time k0) <> 0 ->
  get_time_inms (current_kernel_time k1)
  = get_time_inms (current_kernel_time k0) + 600 ->
  let T0 := get_time_inms (current_kernel_time k0) in
  let m1 := {| idle_lasttime := T0; idlecount := idlecount m;
               freq := freq m; freq_stores := freq_stores m |} in
  adreno_idler p k0 stats d m = Some (0, m1)
  /\ adreno_idler p k1 stats d m1 = Some (1, stored floor m1).
Proof.
  intros Hw Hms Hdd Hon Hb Ht Hf Habove Hclear Hcount Hnz Hlater T0 m1.
  assert (Hi : below_idleworkload p stats = true).
  { apply idle_test_true; rewrite Hw; [lia | rewrite Hb; lia]. }
  assert (Hratio : below_downdifferenctial p stats = true).
  { unfold below_downdifferenctial. rewrite Hb, Ht, Hdd. reflexivity. }
  assert (Hcnt : (idlewait p <=? idlecount m) = false) by (apply Z.leb_gt; exact Hcount).
  assert (Hfreq : (freq m =? floor) = false) by (apply Z.eqb_neq; lia).
  pose proof (get_time_inms_range (current_kernel_time k0)) as R0.
  pose proof (get_time_inms_range (current_kernel_time k1)) as R1.
  fold T0 in Hnz, Hlater, R0. rewrite Hlater in R1.
  split.
  - rewrite (adreno_idler_idle p k0 stats d m Hon Hi). cbn zeta.
    fold T0. rewrite Hf, Hfreq, Hcnt, Hratio.
    unfold idle_noted. rewrite Hclear. cbn.
    rewrite Hms, s64_id by lia.
    replace (T0 + 500 <=? T0) with false by (symmetry; apply Z.leb_gt; lia).
    reflexivity.
  - rewrite (adreno_idler_idle p k1 stats d m1 Hon Hi). cbn zeta.
    rewrite Hlater, Hf. unfold idle_noted. cbn.
    rewrite Hfreq, Hcnt, Hratio.
    replace (T0 =? 0) with false by (symmetry; apply Z.eqb_neq; exact Hnz).
    cbn. rewrite Hms, s64_id by lia.
    replace (T0 + 500 <=? T0 + 600) with true by (symmetry; apply Z.leb_le; lia).
    reflexivity.
Qed.

Lemma time_based_confirmation_witness :
  adreno_idler default_params (at_ms false 7000) idle_sample table3 (fresh 400)
  = Some (0, {| idle_lasttime := 7000; idlecount := 0; freq := 400;
                freq_stores := [] |})
  /\ adreno_idler default_params (at_ms false 7600) idle_sample table3
       {| idle_lasttime := 7000; idlecount := 0; freq := 400;
          freq_stores := [] |}
     = Some (1, {| idle_lasttime := 7000; idlecount := 0; freq := 200;
                   freq_stores := [200] |}).
Proof.
  apply (time_based_confirmation default_params (at_ms false 7000)
           (at_ms false 7600) idle_sample table3 (fresh 400) 200);
    try reflexivity; try (cbn; lia); try (vm_compute; discriminate).
Defined.

(** C2. The routine never adds to [idlecount].  Twenty-five idle samples
    in a row, each passing the ratio test, 10 ms apart, with 25 events to
    wait for and [*freq] above the lowest entry: all 25 calls return 0,
    the 25th included, and [idlecount] is still 0 afterwards. *)
Theorem idle_burst_not_confirmed :
  length idle_burst = 25%nat
  /\ Forall (fun ks => below_idleworkload default_params (snd ks) = true
                       /\ below_downdifferenctial default_params (snd ks) = true)
            idle_burst
  /\ run_samples default_params table3 idle_burst (fresh 400)
     = Some (repeat 0 25,
             {| idle_lasttime := 7000; idlecount := 0; freq := 400;
                freq_stores := [] |}).
Proof.
  split; [reflexivity |]. split.
  - unfold idle_burst. apply Forall_forall. intros ks Hin.
    apply in_map_iff in Hin. destruct Hin as [i [<- _]].
    split; reflexivity.
  - vm_compute. reflexivity.
Qed.

(** C7 fails as stated: with a table of a single entry, a busy sample and
    the display suspended, the routine stores that entry and returns 1. *)
Lemma single_entry_table_still_decides :
  adreno_idler default_params (at_ms true 7000) busy_sample table1 (fresh 200)
  = Some (1, {| idle_lasttime := 0; idlecount := 0; freq := 200;
                freq_stores := [200] |})
  /\ adreno_idler default_params (at_ms true 7000) busy_sample table1 (fresh 200)
     <> Some (0, fresh 200).
Proof.
  split; [reflexivity | discriminate].
Qed.

(** C7, amended.  The routine never looks at the size of the table.  With
    fewer than two entries: switched off, it returns 0 and touches nothing;
    switched on, a busy sample with the display on makes it read
    [freq_table[max_state - 2]], which lies outside the table, and so does
    every sample when the table is empty; with a single entry, a busy
    sample with the display suspended stores that entry and returns 1, and
    an idle sample is handled with that entry as the lowest one. *)
Theorem short_table_is_not_checked p k stats d m :
  max_state (profile d) = Z.of_nat (length (freq_table (profile d))) ->
  (length (freq_table (profile d)) < 2)%nat ->
  (adreno_idler_active p = 0 -> adreno_idler p k stats d m = Some (0, m))
  /\ (adreno_idler_active p <> 0 -> below_idleworkload p stats = false ->
      state_suspended k = false ->
      adreno_idler p k stats d m = None)
  /\ (adreno_idler_active p <> 0 -> freq_table (profile d) = [] ->
      adreno_idler p k stats d m = None)
  /\ (forall f, adreno_idler_active p <> 0 -> freq_table (profile d) = [f] ->
      lowest d = Some f
      /\ (below_idleworkload p stats = false -> state_suspended k = true ->
          adreno_idler p k stats d m = Some (1, stored f m))).
Proof.
  intros Hl Hshort.
  assert (Hbump : second_lowest d = None).
  { unfold second_lowest. apply table_entry_outside. unfold uint.
    destruct (freq_table (profile d)) as [|f [|g l]]; cbn in Hl, Hshort |- *;
      [rewrite Hl; cbn; lia | rewrite Hl; cbn; lia | lia]. }
  split; [apply adreno_idler_off |].
  split.
  { intros Hon Hi Hs.
    rewrite (adreno_idler_busy p k stats d m Hon Hi Hs), Hbump. reflexivity. }
  split.
  { intros Hon Hnil.
    assert (Hfloor : lowest d = None).
    { unfold lowest. apply table_entry_outside. rewrite Hnil in Hl |- *.
      rewrite Hl. cbn. lia. }
    destruct (below_idleworkload p stats) eqn:Hi.
    - rewrite (adreno_idler_idle p k stats d m Hon Hi). cbn zeta.
      rewrite Hfloor. reflexivity.
    - destruct (state_suspended k) eqn:Hs.
      + rewrite (adreno_idler_suspended p k stats d m Hon Hi Hs), Hfloor.
        reflexivity.
      + rewrite (adreno_idler_busy p k stats d m Hon Hi Hs), Hbump.
        reflexivity. }
  intros f Hon Hone.
  assert (Hfloor : lowest d = Some f).
  { unfold lowest, table_entry. rewrite Hone in Hl |- *. rewrite Hl.
    reflexivity. }
  split; [exact Hfloor |].
  intros Hi Hs.
  rewrite (adreno_idler_suspended p k stats d m Hon Hi Hs), Hfloor.
  reflexivity.
Qed.

Lemma short_table_is_not_checked_witness :
  adreno_idler default_params (at_ms false 7000) busy_sample table1 (fresh 200)
  = None.
Proof.
  assert (Hl : max_state (profile table1)
               = Z.of_nat (length (freq_table (profile table1))))
    by reflexivity.
  assert (Hshort : (length (freq_table (profile table1)) < 2)%nat)
    by (cbn; lia).
  apply (proj1 (proj2 (short_table_is_not_checked default_params
                         (at_ms false 7000) busy_sample table1 (fresh 200)
                         Hl Hshort))).
  - discriminate.
  - reflexivity.
  - reflexivity.
Defined.

(** C8 fails as stated: a sample with [total_time = 0] takes the idle
    branch, not the branch of a busy sample; on the same state the two
    leave different memories. *)
Lemma empty_sample_takes_idle_branch :
  adreno_idler default_params (at_ms false 7000) empty_sample table3 (fresh 600)
  = Some (0, {| idle_lasttime := 7000; idlecount := 0; freq := 600;
                freq_stores := [] |})
  /\ adreno_idler default_params (at_ms false 7000) busy_sample table3 (fresh 600)
     = Some (0, {| idle_lasttime := 0; idlecount := 0; freq := 400;
                   freq_stores := [400] |})
  /\ adreno_idler default_params (at_ms false 7000) empty_sample table3 (fresh 600)
     <> adreno_idler default_params (at_ms false 7000) busy_sample table3
          (fresh 600).
Proof.
  split; [reflexivity |]. split; [reflexivity | discriminate].
Qed.

(** C8, amended.  Switch on, a positive threshold, a sample with
    [total_time = 0] (so [busy_time = 0]) and a table with a lowest entry:
    the sample is classed idle; the ratio test is evaluated and fails,
    there being no division to fault; the call notes the start of the idle
    period if none was noted, stores nothing through [freq], and returns 1
    exactly when [*freq] is already the lowest entry. *)
Theorem empty_sample_is_idle_unconfirmed p k stats d m floor :
  adreno_idler_active p <> 0 ->
  0 < idleworkload p < 2 ^ 64 ->
  total_time stats = 0 -> 0 <= busy_time stats <= total_time stats ->
  lowest d = Some floor ->
  below_idleworkload p stats = true
  /\ below_downdifferenctial p stats = false
  /\ adreno_idler p k stats d m
     = Some ((if freq m =? floor then 1 else 0),
             idle_noted (get_time_inms (current_kernel_time k)) m).
Proof.
  intros Hon Hw Ht Hb Hf.
  assert (Hi : below_idleworkload p stats = true)
    by (apply idle_test_true; lia).
  assert (Hratio : below_downdifferenctial p stats = false).
  { unfold below_downdifferenctial. rewrite Ht. cbn.
    apply Z.ltb_ge. apply ulong_range. }
  repeat split; try assumption.
  rewrite (adreno_idler_idle p k stats d m Hon Hi). cbn zeta.
  rewrite Hf, Hratio, !andb_false_r.
  destruct (freq m =? floor); reflexivity.
Qed.

Lemma empty_sample_is_idle_unconfirmed_witness :
  below_idleworkload default_params empty_sample = true
  /\ below_downdifferenctial default_params empty_sample = false
  /\ adreno_idler default_params (at_ms false 7000) empty_sample table3
       (fresh 600)
     = Some ((if freq (fresh 600) =? 200 then 1 else 0),
             idle_noted (get_time_inms (current_kernel_time (at_ms false 7000)))
               (fresh 600)).
Proof.
  apply (empty_sample_is_idle_unconfirmed default_params (at_ms false 7000)
           empty_sample table3 (fresh 600) 200).
  - discriminate.
  - cbn. lia.
  - reflexivity.
  - cbn. lia.
  - reflexivity.
Defined.

(** C9 fails as stated.  After an idle sample has marked the start of an
    idle period, a busy sample taken with the display suspended leaves the
    mark in place, so the state does not follow the class of that sample.
    And the mark left by a call for one device is the one a call for another
    device is measured against: its first idle sample, 600 ms later, is
    confirmed at once, which it is not on a clear state. *)
Lemma idle_mark_outlives_its_sample :
  adreno_idler default_params (at_ms false 7000) idle_sample table3 (fresh 400)
  = Some (0, {| idle_lasttime := 7000; idlecount := 0; freq := 400;
                freq_stores := [] |})
  /\ adreno_idler default_params (at_ms true 7100) busy_sample table3
       {| idle_lasttime := 7000; idlecount := 0; freq := 400;
          freq_stores := [] |}
     = Some (1, {| idle_lasttime := 7000; idlecount := 0; freq := 200;
                   freq_stores := [200] |})
  /\ ~ state_follows_sample default_params busy_sample
         {| idle_lasttime := 7000; idlecount := 0; freq := 200;
            freq_stores := [200] |}
  /\ adreno_idler default_params (at_ms false 7600) idle_sample table_other
       {| idle_lasttime := 7000; idlecount := 0; freq := 500;
          freq_stores := [] |}
     = Some (1, {| idle_lasttime := 7000; idlecount := 0; freq := 300;
                   freq_stores := [300] |})
  /\ adreno_idler default_params (at_ms false 7600) idle_sample table_other
       (fresh 500)
     = Some (0, {| idle_lasttime := 7600; idlecount := 0; freq := 500;
                   freq_stores := [] |}).
Proof.
  repeat split; try reflexivity.
  unfold state_follows_sample. cbn. intros [_ H]. discriminate H.
Qed.

(** C9, amended.  After a call with the switch on that returns: a busy
    sample with the display on leaves [idlecount] and [idle_lasttime] at
    zero; a busy sample with the display suspended leaves both as they
    were; an idle sample leaves [idle_lasttime] at its old value if that was
    set and at the clock reading otherwise, hence set unless both are zero.
    The two variables are the module's own, one pair for all devices: what
    a call leaves in them is the same whichever device it is made for. *)
Theorem state_after_sample p k stats d m r m' :
  adreno_idler_active p <> 0 ->
  adreno_idler p k stats d m = Some (r, m') ->
  (below_idleworkload p stats = false -> state_suspended k = false ->
   idlecount m' = 0 /\ idle_lasttime m' = 0)
  /\ (below_idleworkload p stats = false -> state_suspended k = true ->
      idlecount m' = idlecount m /\ idle_lasttime m' = idle_lasttime m)
  /\ (below_idleworkload p stats = true ->
      idle_lasttime m'
      = (if idle_lasttime m =? 0
         then get_time_inms (current_kernel_time k)
         else idle_lasttime m)
      /\ (idle_lasttime m <> 0 \/ get_time_inms (current_kernel_time k) <> 0 ->
          idle_lasttime m' <> 0))
  /\ (forall d2 r2 m2,
        adreno_idler p k stats d2 m = Some (r2, m2) ->
        idlecount m2 = idlecount m' /\ idle_lasttime m2 = idle_lasttime m').
Proof.
  intros Hon Hrun.
  pose proof (statics_after_call p k stats d m r m' Hon Hrun) as Hst.
  split; [| split; [| split]].
  - intros Hi Hs. rewrite Hi, Hs in Hst. injection Hst as -> ->.
    split; reflexivity.
  - intros Hi Hs. rewrite Hi, Hs in Hst. injection Hst as -> ->.
    split; reflexivity.
  - intros Hi. rewrite Hi in Hst. injection Hst as Hl _.
    split; [exact Hl |].
    intros Hset. rewrite Hl.
    destruct (idle_lasttime m =? 0) eqn:Hz.
    + apply Z.eqb_eq in Hz. destruct Hset as [Hset | Hset]; [contradiction | exact Hset].
    + apply Z.eqb_neq. exact Hz.
  - intros d2 r2 m2 Hrun2.
    pose proof (statics_after_call p k stats d2 m r2 m2 Hon Hrun2) as Hst2.
    rewrite <- Hst in Hst2. injection Hst2 as -> ->. split; reflexivity.
Qed.

Lemma state_after_sample_witness :
  idlecount (stored 200 (fresh 400)) = idlecount (fresh 400)
  /\ idle_lasttime (stored 200 (fresh 400)) = idle_lasttime (fresh 400).
Proof.
  assert (Hon : adreno_idler_active default_params <> 0) by discriminate.
  assert (Hrun : adreno_idler default_params (at_ms true 7000) busy_sample
                   table3 (fresh 400)
                 = Some (1, stored 200 (fresh 400))) by reflexivity.
  apply (proj1 (proj2 (state_after_sample default_params (at_ms true 7000)
                         busy_sample table3 (fresh 400) 1
                         (stored 200 (fresh 400)) Hon Hrun)));
    reflexivity.
Defined.

(** ** Further properties of the clock reading *)

(** The reading of a normalised [timespec], as one division. *)
Lemma get_time_inms_div ts :
  0 <= tv_sec ts < 2 ^ 52 -> 0 <= tv_nsec ts < 1000000000 ->
  get_time_inms ts = (tv_sec ts * 1000000000 + tv_nsec ts) / 1000000.
Proof.
  intros Hs Hn. rewrite (get_time_inms_exact ts Hs Hn).
  replace (tv_sec ts * 1000000000) with (tv_sec ts * 1000 * 1000000) by lia.
  rewrite Z.div_add_l by lia. reflexivity.
Qed.

(** X1. For a normalised [timespec] (nanoseconds below one second, seconds
    non-negative and below 2^52) [get_time_inms] returns the whole
    milliseconds of the time: the part below one millisecond is dropped and
    nothing wraps. *)
Theorem clock_reading_whole_ms ts :
  0 <= tv_sec ts < 2 ^ 52 -> 0 <= tv_nsec ts < 1000000000 ->
  get_time_inms ts * 1000000 <= tv_sec ts * 1000000000 + tv_nsec ts
  /\ tv_sec ts * 1000000000 + tv_nsec ts < (get_time_inms ts + 1) * 1000000.
Proof.
  intros Hs Hn. rewrite (get_time_inms_div ts Hs Hn).
  pose proof (Z.div_mod (tv_sec ts * 1000000000 + tv_nsec ts) 1000000) as Hdm.
  pose proof (Z.mod_pos_bound (tv_sec ts * 1000000000 + tv_nsec ts) 1000000) as Hb.
  lia.
Qed.

Lemma clock_reading_whole_ms_witness :
  get_time_inms {| tv_sec := 7; tv_nsec := 600999999 |} * 1000000
  <= 7 * 1000000000 + 600999999
  /\ 7 * 1000000000 + 600999999
     < (get_time_inms {| tv_sec := 7; tv_nsec := 600999999 |} + 1) * 1000000.
Proof.
  apply (clock_reading_whole_ms {| tv_sec := 7; tv_nsec := 600999999 |});
    cbn; lia.
Defined.

(** X2. The reading never runs backwards: of two normalised [timespec]
    values, the later one reads no less. *)
Theorem clock_reading_monotone ts1 ts2 :
  0 <= tv_sec ts1 < 2 ^ 52 -> 0 <= tv_nsec ts1 < 1000000000 ->
  0 <= tv_sec ts2 < 2 ^ 52 -> 0 <= tv_nsec ts2 < 1000000000 ->
  tv_sec ts1 * 1000000000 + tv_nsec ts1
  <= tv_sec ts2 * 1000000000 + tv_nsec ts2 ->
  get_time_inms ts1 <= get_time_inms ts2.
Proof.
  intros Hs1 Hn1 Hs2 Hn2 Hle.
  rewrite (get_time_inms_div ts1 Hs1 Hn1), (get_time_inms_div ts2 Hs2 Hn2).
  apply Z.div_le_mono; [lia | exact Hle].
Qed.

Lemma clock_reading_monotone_witness :
  get_time_inms {| tv_sec := 7; tv_nsec := 999999999 |}
  <= get_time_inms {| tv_sec := 8; tv_nsec := 0 |}.
Proof.
  apply (clock_reading_monotone {| tv_sec := 7; tv_nsec := 999999999 |}
           {| tv_sec := 8; tv_nsec := 0 |}); cbn; lia.
Defined.

(** ** Further properties of the routine *)

Lemma idle_noted_keeps_freq now m :
  freq (idle_noted now m) = freq m
  /\ freq_stores (idle_noted now m) = freq_stores m
  /\ idlecount (idle_noted now m) = idlecount m.
Proof.
  unfold idle_noted. destruct (idle_lasttime m =? 0); repeat split.
Qed.

Lemma idle_noted_set now m : idle_lasttime m <> 0 -> idle_noted now m = m.
Proof.
  intros H. unfold idle_noted. apply Z.eqb_neq in H. rewrite H. reflexivity.
Qed.

Ltac split_tests :=
  repeat match goal with
         | |- context [if ?b then _ else _] => destruct b eqn:?
         end.

(** X3. The routine only ever returns 0 or 1. *)
Theorem returns_zero_or_one p k stats d m r m' :
  adreno_idler p k stats d m = Some (r, m') -> r = 0 \/ r = 1.
Proof.
  destruct (Z.eq_dec (adreno_idler_active p) 0) as [Hoff | Hon].
  - rewrite (adreno_idler_off p k stats d m Hoff).
    intros H. injection H as <- _. left. reflexivity.
  - destruct (below_idleworkload p stats) eqn:Hi.
    + rewrite (adreno_idler_idle p k stats d m Hon Hi). cbn zeta.
      destruct (lowest d); [| discriminate].
      split_tests; intros H; injection H as <- _; auto.
    + destruct (state_suspended k) eqn:Hs.
      * rewrite (adreno_idler_suspended p k stats d m Hon Hi Hs).
        destruct (lowest d); [| discriminate].
        intros H. injection H as <- _. right. reflexivity.
      * rewrite (adreno_idler_busy p k stats d m Hon Hi Hs).
        destruct (second_lowest d); [| discriminate].
        intros H. injection H as <- _. left. reflexivity.
Qed.

Lemma returns_zero_or_one_witness : 1 = 0 \/ 1 = 1.
Proof.
  apply (returns_zero_or_one default_params (at_ms true 7000) busy_sample
           table3 (fresh 600) 1 (stored 200 (fresh 600))).
  reflexivity.
Defined.

(** X4. With the switch on and [max_state] the length of the table, the
    routine returns on every sample, flag, clock and state exactly when the
    table has at least two entries; with fewer, some call reads outside
    it. *)
Theorem returns_iff_two_entries p d :
  adreno_idler_active p <> 0 ->
  max_state (profile d) = Z.of_nat (length (freq_table (profile d))) ->
  max_state (profile d) < 2 ^ 32 ->
  (forall k stats m, exists r m', adreno_idler p k stats d m = Some (r, m'))
  <-> 2 <= max_state (profile d).
Proof.
  intros Hon Hl Hmax. split.
  - intros Hall.
    destruct (Z_lt_le_dec (max_state (profile d)) 2) as [Hshort | Hok];
      [exfalso | exact Hok].
    pose (stats := {| total_time := 0; busy_time := ulong (idleworkload p) |}).
    assert (Hi : below_idleworkload p stats = false).
    { unfold below_idleworkload, stats. cbn. apply Z.ltb_irrefl. }
    assert (Hb : second_lowest d = None).
    { unfold second_lowest. apply table_entry_outside. rewrite <- Hl.
      assert (Hc : max_state (profile d) = 0 \/ max_state (profile d) = 1) by lia.
      destruct Hc as [-> | ->]; cbn; lia. }
    destruct (Hall (at_ms false 0) stats (fresh 0)) as [r [m' Hrun]].
    rewrite (adreno_idler_busy p (at_ms false 0) stats d (fresh 0) Hon Hi eq_refl),
      Hb in Hrun.
    discriminate Hrun.
  - intros Hok k stats m. apply adreno_idler_returns.
    split; [exact Hl | lia].
Qed.

Lemma returns_iff_two_entries_witness :
  (forall k stats m,
      exists r m', adreno_idler default_params k stats table3 m = Some (r, m'))
  <-> 2 <= max_state (profile table3).
Proof.
  apply (returns_iff_two_entries default_params table3).
  - discriminate.
  - reflexivity.
  - cbn. lia.
Defined.

(** X5. The event path.  Switch on, an idle sample, [*freq] not the lowest
    entry, [idlecount] at or above [idlewait], and the ratio test passed:
    the routine returns 1 and stores nothing through [freq], so the caller
    is told to stop while [*freq] still holds the frequency it came with. *)
Theorem event_path_returns_without_store p k stats d m floor :
  adreno_idler_active p <> 0 ->
  below_idleworkload p stats = true ->
  lowest d = Some floor -> freq m <> floor ->
  idlewait p <= idlecount m ->
  below_downdifferenctial p stats = true ->
  exists m',
    adreno_idler p k stats d m = Some (1, m')
    /\ freq m' = freq m /\ freq_stores m' = freq_stores m
    /\ freq m' <> floor.
Proof.
  intros Hon Hi Hf Hcur Hcnt Hratio.
  exists (idle_noted (get_time_inms (current_kernel_time k)) m).
  rewrite (adreno_idler_idle p k stats d m Hon Hi). cbn zeta.
  rewrite Hf, Hratio.
  replace (freq m =? floor) with false by (symmetry; apply Z.eqb_neq; exact Hcur).
  replace (idlewait p <=? idlecount m) with true
    by (symmetry; apply Z.leb_le; exact Hcnt).
  destruct (idle_noted_keeps_freq (get_time_inms (current_kernel_time k)) m)
    as [Hfr [Hst _]].
  cbn. rewrite Hfr, Hst. repeat split. exact Hcur.
Qed.

Lemma event_path_returns_without_store_witness :
  exists m',
    adreno_idler default_params (at_ms false 7000) idle_sample table3
      {| idle_lasttime := 6900; idlecount := 25; freq := 600;
         freq_stores := [] |} = Some (1, m')
    /\ freq m' = 600 /\ freq_stores m' = [] /\ freq m' <> 200.
Proof.
  apply (event_path_returns_without_store default_params (at_ms false 7000)
           idle_sample table3
           {| idle_lasttime := 6900; idlecount := 25; freq := 600;
              freq_stores := [] |} 200).
  - discriminate.
  - reflexivity.
  - reflexivity.
  - discriminate.
  - cbn. lia.
  - reflexivity.
Defined.

(** X6. No confirmation without the ratio test.  Switch on, an idle sample
    that fails the ratio test, [*freq] not the lowest entry: whatever
    [idlecount] and the clock say, the routine returns 0 and stores
    nothing; it only notes the start of the idle period. *)
Theorem failed_ratio_defers p k stats d m floor :
  adreno_idler_active p <> 0 ->
  below_idleworkload p stats = true ->
  lowest d = Some floor -> freq m <> floor ->
  below_downdifferenctial p stats = false ->
  adreno_idler p k stats d m
  = Some (0, idle_noted (get_time_inms (current_kernel_time k)) m).
Proof.
  intros Hon Hi Hf Hcur Hratio.
  rewrite (adreno_idler_idle p k stats d m Hon Hi). cbn zeta.
  rewrite Hf, Hratio, !andb_false_r.
  replace (freq m =? floor) with false by (symmetry; apply Z.eqb_neq; exact Hcur).
  reflexivity.
Qed.

Lemma failed_ratio_defers_witness :
  adreno_idler default_params (at_ms false 9000)
    {| total_time := 10000; busy_time := 4000 |} table3
    {| idle_lasttime := 7000; idlecount := 40; freq := 600; freq_stores := [] |}
  = Some (0, idle_noted (get_time_inms (current_kernel_time (at_ms false 9000)))
               {| idle_lasttime := 7000; idlecount := 40; freq := 600;
                  freq_stores := [] |}).
Proof.
  apply (failed_ratio_defers default_params (at_ms false 9000)
           {| total_time := 10000; busy_time := 4000 |} table3
           {| idle_lasttime := 7000; idlecount := 40; freq := 600;
              freq_stores := [] |} 200).
  - discriminate.
  - reflexivity.
  - reflexivity.
  - discriminate.
  - reflexivity.
Defined.

(** X7. Inside the wait.  Switch on, an idle sample, [*freq] not the lowest
    entry, fewer events counted than [idlewait], an idle period running
    since [idle_lasttime], and the clock still before
    [idle_lasttime + idlewaitms] (a sum that fits [int64_t]): the routine
    returns 0 and leaves the whole memory as it was. *)
Theorem inside_wait_nothing_happens p k stats d m floor :
  adreno_idler_active p <> 0 ->
  below_idleworkload p stats = true ->
  lowest d = Some floor -> freq m <> floor ->
  idlecount m < idlewait p ->
  idle_lasttime m <> 0 ->
  - 2 ^ 63 <= idle_lasttime m + idlewaitms p < 2 ^ 63 ->
  get_time_inms (current_kernel_time k) < idle_lasttime m + idlewaitms p ->
  adreno_idler p k stats d m = Some (0, m).
Proof.
  intros Hon Hi Hf Hcur Hcnt Hset Hfit Hearly.
  rewrite (adreno_idler_idle p k stats d m Hon Hi). cbn zeta.
  rewrite Hf, (idle_noted_set _ m Hset), (s64_id _ Hfit).
  replace (freq m =? floor) with false by (symmetry; apply Z.eqb_neq; exact Hcur).
  replace (idlewait p <=? idlecount m) with false
    by (symmetry; apply Z.leb_gt; exact Hcnt).
  replace (idle_lasttime m + idlewaitms p <=? get_time_inms (current_kernel_time k))
    with false by (symmetry; apply Z.leb_gt; exact Hearly).
  reflexivity.
Qed.

Lemma inside_wait_nothing_happens_witness :
  adreno_idler default_params (at_ms false 7499) idle_sample table3
    {| idle_lasttime := 7000; idlecount := 0; freq := 600; freq_stores := [] |}
  = Some (0, {| idle_lasttime := 7000; idlecount := 0; freq := 600;
                freq_stores := [] |}).
Proof.
  apply (inside_wait_nothing_happens default_params (at_ms false 7499)
           idle_sample table3
           {| idle_lasttime := 7000; idlecount := 0; freq := 600;
              freq_stores := [] |} 200).
  - discriminate.
  - reflexivity.
  - reflexivity.
  - discriminate.
  - cbn. lia.
  - discriminate.
  - cbn. lia.
  - vm_compute. reflexivity.
Defined.

(** X8. The wait is over.  As X7, but the sample passes the ratio test and
    the clock has reached [idle_lasttime + idlewaitms]: the routine stores
    the lowest entry in [*freq], returns 1, and leaves [idle_lasttime] and
    [idlecount] alone.  The bound is inclusive. *)
Theorem wait_over_forces_lowest p k stats d m floor :
  adreno_idler_active p <> 0 ->
  below_idleworkload p stats = true ->
  lowest d = Some floor -> freq m <> floor ->
  idlecount m < idlewait p ->
  below_downdifferenctial p stats = true ->
  idle_lasttime m <> 0 ->
  - 2 ^ 63 <= idle_lasttime m + idlewaitms p < 2 ^ 63 ->
  idle_lasttime m + idlewaitms p <= get_time_inms (current_kernel_time k) ->
  adreno_idler p k stats d m = Some (1, stored floor m).
Proof.
  intros Hon Hi Hf Hcur Hcnt Hratio Hset Hfit Hlate.
  rewrite (adreno_idler_idle p k stats d m Hon Hi). cbn zeta.
  rewrite Hf, Hratio, (idle_noted_set _ m Hset), (s64_id _ Hfit).
  replace (freq m =? floor) with false by (symmetry; apply Z.eqb_neq; exact Hcur).
  replace (idlewait p <=? idlecount m) with false
    by (symmetry; apply Z.leb_gt; exact Hcnt).
  replace (idle_lasttime m + idlewaitms p <=? get_time_inms (current_kernel_time k))
    with true by (symmetry; apply Z.leb_le; exact Hlate).
  reflexivity.
Qed.

Lemma wait_over_forces_lowest_witness :
  adreno_idler default_params (at_ms false 7500) idle_sample table3
    {| idle_lasttime := 7000; idlecount := 0; freq := 600; freq_stores := [] |}
  = Some (1, stored 200 {| idle_lasttime := 7000; idlecount := 0; freq := 600;
                           freq_stores := [] |}).
Proof.
  apply (wait_over_forces_lowest default_params (at_ms false 7500)
           idle_sample table3
           {| idle_lasttime := 7000; idlecount := 0; freq := 600;
              freq_stores := [] |} 200).
  - discriminate.
  - reflexivity.
  - reflexivity.
  - discriminate.
  - cbn. lia.
  - reflexivity.
  - discriminate.
  - cbn. lia.
  - vm_compute. discriminate.
Defined.

(** X9. An idle sample is treated the same whether or not the display is
    suspended: the flag is only looked at for busy samples. *)
Theorem idle_sample_ignores_suspend p k1 k2 stats d m :
  current_kernel_time k1 = current_kernel_time k2 ->
  below_idleworkload p stats = true ->
  adreno_idler p k1 stats d m = adreno_idler p k2 stats d m.
Proof.
  intros Hclock Hi.
  destruct (Z.eq_dec (adreno_idler_active p) 0) as [Hoff | Hon].
  - rewrite !(adreno_idler_off p _ stats d m Hoff). reflexivity.
  - rewrite (adreno_idler_idle p k1 stats d m Hon Hi),
      (adreno_idler_idle p k2 stats d m Hon Hi), Hclock.
    reflexivity.
Qed.

Lemma idle_sample_ignores_suspend_witness :
  adreno_idler default_params (at_ms true 7000) idle_sample table3 (fresh 600)
  = adreno_idler default_params (at_ms false 7000) idle_sample table3 (fresh 600).
Proof.
  apply (idle_sample_ignores_suspend default_params (at_ms true 7000)
           (at_ms false 7000) idle_sample table3 (fresh 600));
    reflexivity.
Defined.

Lemma cons_not_self (v : Z) (l : list Z) : l <> v :: l.
Proof.
  intros H. apply (f_equal (@length Z)) in H. cbn in H. lia.
Qed.

(** X10. A store through [freq] tells the branch taken: next to a return
    of 1 the value stored is the lowest entry and [idlecount] is as it
    was; next to a return of 0 it is the second-lowest entry and both
    [idlecount] and [idle_lasttime] have been cleared. *)
Theorem store_tells_branch p k stats d m r m' v :
  adreno_idler p k stats d m = Some (r, m') ->
  freq_stores m' = v :: freq_stores m ->
  (r = 1 /\ lowest d = Some v /\ idlecount m' = idlecount m)
  \/ (r = 0 /\ second_lowest d = Some v
      /\ idlecount m' = 0 /\ idle_lasttime m' = 0).
Proof.
  destruct (Z.eq_dec (adreno_idler_active p) 0) as [Hoff | Hon].
  - rewrite (adreno_idler_off p k stats d m Hoff).
    intros H. injection H as _ <-. intros Hs.
    exfalso. exact (cons_not_self v _ Hs).
  - destruct (below_idleworkload p stats) eqn:Hi.
    + rewrite (adreno_idler_idle p k stats d m Hon Hi). cbn zeta.
      destruct (lowest d) as [floor|] eqn:Hf; [| discriminate].
      destruct (idle_noted_keeps_freq (get_time_inms (current_kernel_time k)) m)
        as [_ [Hst Hic]].
      split_tests; intros H; injection H as <- <-; cbn; rewrite ?Hst; intros Hs;
        try (exfalso; exact (cons_not_self v _ Hs)).
      injection Hs as <-. left. repeat split. exact Hic.
    + destruct (state_suspended k) eqn:Hs.
      * rewrite (adreno_idler_suspended p k stats d m Hon Hi Hs).
        destruct (lowest d) as [floor|] eqn:Hf; [| discriminate].
        intros H. injection H as <- <-. cbn. intros Hst. injection Hst as <-.
        left. repeat split.
      * rewrite (adreno_idler_busy p k stats d m Hon Hi Hs).
        destruct (second_lowest d) as [bump|] eqn:Hb; [| discriminate].
        intros H. injection H as <- <-. cbn. intros Hst. injection Hst as <-.
        right. repeat split.
Qed.

Lemma store_tells_branch_witness :
  (0 = 1 /\ lowest table3 = Some 400
   /\ idlecount (stored 400 (reset (fresh 600))) = idlecount (fresh 600))
  \/ (0 = 0 /\ second_lowest table3 = Some 400
      /\ idlecount (stored 400 (reset (fresh 600))) = 0
      /\ idle_lasttime (stored 400 (reset (fresh 600))) = 0).
Proof.
  apply (store_tells_branch default_params (at_ms false 7000) busy_sample
           table3 (fresh 600) 0 (stored 400 (reset (fresh 600))) 400);
    reflexivity.
Defined.

(** [idlecount] after one call is what it was, or zero. *)
Lemma idlecount_kept_or_cleared p k stats d m r m' :
  adreno_idler p k stats d m = Some (r, m') ->
  idlecount m' = idlecount m \/ idlecount m' = 0.
Proof.
  destruct (Z.eq_dec (adreno_idler_active p) 0) as [Hoff | Hon].
  - rewrite (adreno_idler_off p k stats d m Hoff).
    intros H. injection H as _ <-. left. reflexivity.
  - intros Hrun.
    pose proof (statics_after_call p k stats d m r m' Hon Hrun) as Hst.
    destruct (below_idleworkload p stats); [| destruct (state_suspended k)];
      injection Hst as _ ->; auto.
Qed.

(** X11. The routine never raises [idlecount]: after any sequence of
    calls, on any samples, it holds the value it started with or 0.  From
    a cleared counter it is 0 for good. *)
Theorem idlecount_never_grows p d samples :
  forall m rs m',
    run_samples p d samples m = Some (rs, m') ->
    idlecount m' = idlecount m \/ idlecount m' = 0.
Proof.
  induction samples as [| [k stats] rest IH]; intros m rs m' Hrun.
  - cbn in Hrun. injection Hrun as _ <-. left. reflexivity.
  - cbn [run_samples] in Hrun. unfold M.bind in Hrun.
    destruct (adreno_idler p k stats d m) as [[r m1] |] eqn:Hcall;
      [| discriminate].
    destruct (run_samples p d rest m1) as [[rs1 m2] |] eqn:Hrest;
      [| discriminate].
    cbn in Hrun. injection Hrun as _ <-.
    destruct (IH m1 rs1 m2 Hrest) as [Hk | Hz]; [| right; exact Hz].
    rewrite Hk. exact (idlecount_kept_or_cleared p k stats d m r m1 Hcall).
Qed.

Lemma idlecount_never_grows_witness :
  idlecount {| idle_lasttime := 7000; idlecount := 0; freq := 400;
               freq_stores := [] |} = idlecount (fresh 400)
  \/ idlecount {| idle_lasttime := 7000; idlecount := 0; freq := 400;
                  freq_stores := [] |} = 0.
Proof.
  apply (idlecount_never_grows default_params table3 idle_burst (fresh 400)
           (repeat 0 25)).
  vm_compute. reflexivity.
Defined.

(** X12. While [idlecount] is below [idlewait], a return of 1 always comes
    with the lowest entry in [*freq]: either it was there already or the
    call has stored it. *)
Theorem final_comes_with_lowest p k stats d m m' :
  idlecount m < idlewait p ->
  adreno_idler p k stats d m = Some (1, m') ->
  lowest d = Some (freq m').
Proof.
  intros Hcnt.
  destruct (Z.eq_dec (adreno_idler_active p) 0) as [Hoff | Hon].
  - rewrite (adreno_idler_off p k stats d m Hoff). discriminate.
  - destruct (below_idleworkload p stats) eqn:Hi.
    + rewrite (adreno_idler_idle p k stats d m Hon Hi). cbn zeta.
      destruct (lowest d) as [floor|] eqn:Hf; [| discriminate].
      replace (idlewait p <=? idlecount m) with false
        by (symmetry; apply Z.leb_gt; exact Hcnt).
      destruct (idle_noted_keeps_freq (get_time_inms (current_kernel_time k)) m)
        as [Hfr _].
      cbn [andb].
      destruct (freq m =? floor) eqn:Hcur.
      * intros H. injection H as <-. rewrite Hfr.
        apply Z.eqb_eq in Hcur. rewrite Hcur. reflexivity.
      * split_tests; intros H; [| discriminate].
        injection H as <-. reflexivity.
    + destruct (state_suspended k) eqn:Hs.
      * rewrite (adreno_idler_suspended p k stats d m Hon Hi Hs).
        destruct (lowest d) as [floor|] eqn:Hf; [| discriminate].
        intros H. injection H as <-. reflexivity.
      * rewrite (adreno_idler_busy p k stats d m Hon Hi Hs).
        destruct (second_lowest d); discriminate.
Qed.

Lemma final_comes_with_lowest_witness :
  lowest table3
  = Some (freq (stored 200 {| idle_lasttime := 7000; idlecount := 0;
                              freq := 600; freq_stores := [] |})).
Proof.
  apply (final_comes_with_lowest default_params (at_ms false 7500) idle_sample
           table3
           {| idle_lasttime := 7000; idlecount := 0; freq := 600;
              freq_stores := [] |}).
  - cbn. lia.
  - reflexivity.
Defined.



(** X14. With [idlewaitms] set to 0 there is no wait: the first idle sample
    of an idle period that passes the ratio test, with [*freq] not the
    lowest entry and fewer events counted than [idlewait], gets the lowest
    entry stored at once and a return of 1. *)
Theorem zero_wait_confirms_at_once p k stats d m floor :
  adreno_idler_active p <> 0 ->
  below_idleworkload p stats = true ->
  lowest d = Some floor -> freq m <> floor ->
  idle_lasttime m = 0 -> idlecount m < idlewait p ->
  below_downdifferenctial p stats = true ->
  idlewaitms p = 0 ->
  adreno_idler p k stats d m
  = Some (1, {| idle_lasttime := get_time_inms (current_kernel_time k);
                idlecount := idlecount m; freq := floor;
                freq_stores := floor :: freq_stores m |}).
Proof.
  intros Hon Hi Hf Hcur Hclear Hcnt Hratio Hms.
  pose proof (get_time_inms_range (current_kernel_time k)) as Hr.
  rewrite (adreno_idler_idle p k stats d m Hon Hi). cbn zeta.
  rewrite Hf, Hratio. unfold idle_noted. rewrite Hclear. cbn.
  rewrite Hms, Z.add_0_r, s64_id by lia.
  replace (freq m =? floor) with false by (symmetry; apply Z.eqb_neq; exact Hcur).
  replace (idlewait p <=? idlecount m) with false
    by (symmetry; apply Z.leb_gt; exact Hcnt).
  rewrite Z.leb_refl. reflexivity.
Qed.

Lemma zero_wait_confirms_at_once_witness :
  adreno_idler
    {| idleworkload := 5000; idlewaitms := 0; idlewait := 25;
       downdifferenctial := 20; adreno_idler_active := 1 |}
    (at_ms false 7000) idle_sample table3 (fresh 600)
  = Some (1, {| idle_lasttime := get_time_inms
                                   (current_kernel_time (at_ms false 7000));
                idlecount := 0; freq := 200; freq_stores := [200] |}).
Proof.
  apply (zero_wait_confirms_at_once
           {| idleworkload := 5000; idlewaitms := 0; idlewait := 25;
              downdifferenctial := 20; adreno_idler_active := 1 |}
           (at_ms false 7000) idle_sample table3 (fresh 600) 200).
  - discriminate.
  - reflexivity.
  - reflexivity.
  - discriminate.
  - reflexivity.
  - cbn. lia.
  - reflexivity.
  - reflexivity.
Defined.

(** X15. As long as neither product leaves [unsigned long] and the down
    differential is a non-negative [int], the ratio test of the routine is
    the comparison [busy_time * 100 < total_time * downdifferenctial] on
    the integers. *)
Theorem ratio_test_exact p stats :
  0 <= busy_time stats -> busy_time stats * 100 < 2 ^ 64 ->
  0 <= total_time stats ->
  0 <= downdifferenctial p < 2 ^ 31 ->
  total_time stats * downdifferenctial p < 2 ^ 64 ->
  below_downdifferenctial p stats = true
  <-> busy_time stats * 100 < total_time stats * downdifferenctial p.
Proof.
  intros Hb Hb100 Ht Hdd Htdd. unfold below_downdifferenctial.
  rewrite (ulong_id (downdifferenctial p)) by lia.
  rewrite (ulong_id (busy_time stats * 100)) by lia.
  rewrite (ulong_id (total_time stats * downdifferenctial p)) by nia.
  apply Z.ltb_lt.
Qed.

Lemma ratio_test_exact_witness :
  below_downdifferenctial default_params idle_sample = true
  <-> busy_time idle_sample * 100
      < total_time idle_sample * downdifferenctial default_params.
Proof.
  apply (ratio_test_exact default_params idle_sample); cbn; lia.
Defined.

(** X16. Later idle samples never move the start of an idle period: over
    any run of idle samples taken with the switch on, an [idle_lasttime]
    that is set keeps its value. *)
Theorem idle_period_start_is_kept p d samples :
  adreno_idler_active p <> 0 ->
  Forall (fun ks => below_idleworkload p (snd ks) = true) samples ->
  forall m rs m',
    idle_lasttime m <> 0 ->
    run_samples p d samples m = Some (rs, m') ->
    idle_lasttime m' = idle_lasttime m.
Proof.
  intros Hon Hall.
  induction Hall as [| [k stats] rest Hi _ IH]; intros m rs m' Hset Hrun.
  - cbn in Hrun. injection Hrun as _ <-. reflexivity.
  - cbn [run_samples] in Hrun. unfold M.bind in Hrun.
    destruct (adreno_idler p k stats d m) as [[r m1] |] eqn:Hcall;
      [| discriminate].
    destruct (run_samples p d rest m1) as [[rs1 m2] |] eqn:Hrest;
      [| discriminate].
    cbn in Hrun. injection Hrun as _ <-.
    pose proof (statics_after_call p k stats d m r m1 Hon Hcall) as Hst.
    cbn [snd] in Hi. rewrite Hi in Hst.
    replace (idle_lasttime m =? 0) with false in Hst
      by (symmetry; apply Z.eqb_neq; exact Hset).
    injection Hst as Hl _.
    rewrite <- Hl. apply (IH m1 rs1 m2); [rewrite Hl; exact Hset | exact Hrest].
Qed.

Lemma idle_period_start_is_kept_witness :
  idle_lasttime {| idle_lasttime := 6000; idlecount := 0; freq := 200;
                   freq_stores := [200] |}
  = idle_lasttime {| idle_lasttime := 6000; idlecount := 0; freq := 400;
                     freq_stores := [] |}.
Proof.
  assert (Hon : adreno_idler_active default_params <> 0) by discriminate.
  assert (Hall : Forall (fun ks => below_idleworkload default_params (snd ks)
                                   = true) idle_burst).
  { unfold idle_burst. apply Forall_forall. intros ks Hin.
    apply in_map_iff in Hin. destruct Hin as [i [<- _]]. reflexivity. }
  apply (idle_period_start_is_kept default_params table3 idle_burst Hon Hall
           {| idle_lasttime := 6000; idlecount := 0; freq := 400;
              freq_stores := [] |}
           (repeat 1 25)).
  - discriminate.
  - vm_compute. reflexivity.
Defined.

(** X17. Once [*freq] holds the lowest entry, idle samples keep it there:
    over any run of idle samples taken with the switch on, every call
    returns 1, none stores through [freq], and [idlecount] is not
    touched. *)
Theorem idle_run_stays_at_lowest p d floor samples :
  adreno_idler_active p <> 0 ->
  lowest d = Some floor ->
  Forall (fun ks => below_idleworkload p (snd ks) = true) samples ->
  forall m,
    freq m = floor ->
    exists m',
      run_samples p d samples m = Some (repeat 1 (length samples), m')
      /\ freq m' = floor /\ freq_stores m' = freq_stores m
      /\ idlecount m' = idlecount m.
Proof.
  intros Hon Hf Hall.
  induction Hall as [| [k stats] rest Hi _ IH]; intros m Hcur.
  - exists m. repeat split. exact Hcur.
  - cbn [snd] in Hi.
    pose (m1 := idle_noted (get_time_inms (current_kernel_time k)) m).
    destruct (idle_noted_keeps_freq (get_time_inms (current_kernel_time k)) m)
      as [Hfr [Hst Hic]].
    fold m1 in Hfr, Hst, Hic.
    assert (Hcall : adreno_idler p k stats d m = Some (1, m1)).
    { rewrite (adreno_idler_idle p k stats d m Hon Hi). cbn zeta.
      rewrite Hf, Hcur, Z.eqb_refl. reflexivity. }
    destruct (IH m1) as [m2 [Hrest [Hfr2 [Hst2 Hic2]]]].
    { rewrite Hfr. exact Hcur. }
    exists m2. cbn [run_samples length repeat]. unfold M.bind.
    rewrite Hcall, Hrest. cbn.
    repeat split; [exact Hfr2 | rewrite Hst2; exact Hst | rewrite Hic2; exact Hic].
Qed.

Lemma idle_run_stays_at_lowest_witness :
  exists m',
    run_samples default_params table3 idle_burst (fresh 200)
    = Some (repeat 1 (length idle_burst), m')
    /\ freq m' = 200 /\ freq_stores m' = freq_stores (fresh 200)
    /\ idlecount m' = idlecount (fresh 200).
Proof.
  assert (Hon : adreno_idler_active default_params <> 0) by discriminate.
  assert (Hf : lowest table3 = Some 200) by reflexivity.
  assert (Hall : Forall (fun ks => below_idleworkload default_params (snd ks)
                                   = true) idle_burst).
  { unfold idle_burst. apply Forall_forall. intros ks Hin.
    apply in_map_iff in Hin. destruct Hin as [i [<- _]]. reflexivity. }
  apply (idle_run_stays_at_lowest default_params table3 200 idle_burst
           Hon Hf Hall (fresh 200)).
  reflexivity.
Defined.
